(** * JARVIS desktop automation: action dispatch and executor

    Shallow embedding of [src/lib/automation.py], [src/lib/action_processor.py]
    and [src/lib/automation_runner.py].

    Python values handled by the dispatcher are the values [json.loads]
    produces, plus Python's [None] (written [JNull]).  Effects are modelled
    by a small monad that reads a [host] (the operating system, browser and
    GUI automation library), may raise a Python exception, and writes a
    trace of observable events: lines printed, external calls issued, and a
    ghost marker at the entry of each executor operation. *)

From Stdlib Require Import String Ascii List ZArith Bool.
Import ListNotations.
Open Scope string_scope.
Set Warnings "-register-all".

(** ** Python values *)

Inductive json : Type :=
| JNull
| JBool (b : bool)
| JNum (z : Z)
| JStr (s : string)
| JArr (l : list json)
| JObj (fields : list (string * json)).

(** Python truthiness of a value ([if not x:]). *)
Definition truthy (v : json) : bool :=
  match v with
  | JNull => false
  | JBool b => b
  | JNum z => negb (Z.eqb z 0)
  | JStr s => negb (String.eqb s "")
  | JArr l => match l with [] => false | _ => true end
  | JObj f => match f with [] => false | _ => true end
  end.

(** [v == "lit"] for a string literal: only a [str] can be equal to it. *)
Definition is_str (v : json) (lit : string) : bool :=
  match v with
  | JStr s => String.eqb s lit
  | _ => false
  end.

(** [type(v).__name__], used in the message of an [AttributeError]. *)
Definition py_type_name (v : json) : string :=
  match v with
  | JNull => "NoneType"
  | JBool _ => "bool"
  | JNum _ => "int"
  | JStr _ => "str"
  | JArr _ => "list"
  | JObj _ => "dict"
  end.

(** Key lookup in the fields of a dict produced by [json.loads] (whose keys
    are distinct), with the default of [dict.get]. *)
Fixpoint dict_get (fields : list (string * json)) (key : string) (default : json) : json :=
  match fields with
  | [] => default
  | (k, v) :: rest => if String.eqb k key then v else dict_get rest key default
  end.

(** The ASCII part of [str.lower]: it maps A-Z to a-z and leaves every other
    byte alone.  Python's [str.lower] agrees with it on ASCII text only, so
    it serves as the lowering of the concrete hosts of the examples, not as
    [str.lower] itself (see [str_lower] in [host]). *)
Definition lower_ascii (c : ascii) : ascii :=
  let n := nat_of_ascii c in
  if (Nat.leb 65 n && Nat.leb n 90)%bool then ascii_of_nat (n + 32) else c.

Fixpoint ascii_lower (s : string) : string :=
  match s with
  | EmptyString => EmptyString
  | String c rest => String (lower_ascii c) (ascii_lower rest)
  end.

(** ** Exceptions, events and the host *)

Inductive exc_class : Type :=
| JSONDecodeError
| AttributeError
| SyntaxError
| HostError.  (** any exception raised by the OS, browser or GUI library *)

Inductive exn : Type :=
| PyExc (cls : exc_class) (msg : string)   (** a subclass of [Exception] *)
| SystemExit (code : Z).                    (** raised by [sys.exit] *)

(** External calls issued by the executor. *)
Inductive call : Type :=
| WebOpen (url : json)            (** [webbrowser.open(url)] *)
| Sleep (secs : Z)                (** [time.sleep(secs)] *)
| TypeWrite (text : json)         (** [pyautogui.write(text)] *)
| KeyPress (key : string)         (** [pyautogui.press(key)] *)
| Popen (args : list string).     (** [subprocess.Popen(args)] *)

(** One piece of an f-string: literal text or [str()] of a value. *)
Inductive piece : Type :=
| PLit (s : string)
| PVal (v : json).

Inductive op_kind : Type :=
| SearchGoogle
| OpenWebApp
| OpenDesktopApp.

Inductive event : Type :=
| EvPrint (line : list piece)
| EvCall (c : call)
| EvEnter (op : op_kind) (arg : json).  (** ghost: an executor operation starts *)

(** The host decides which external calls raise (and with which message),
    how [os.path.expanduser] resolves a path, and what [str.lower] of the
    Python runtime returns: the Unicode lower-case mapping of its tables,
    on a [str] held as its UTF-8 text (it also lowers non-ASCII capitals,
    such as E with an acute accent).  Statements quantify over every host, so
    they hold for the runtime's own mapping. *)
Record host : Type := {
  raises : call -> option string;
  expanduser : string -> string;
  str_lower : string -> string
}.

(** ** The monad *)

Inductive outcome (A : Type) : Type :=
| Ret (a : A)
| Raise (e : exn).
Arguments Ret {A} a.
Arguments Raise {A} e.

Definition M (A : Type) : Type := host -> outcome A * list event.

Definition ret {A} (a : A) : M A := fun _ => (Ret a, []).

Definition bind {A B} (m : M A) (k : A -> M B) : M B :=
  fun h =>
    match m h with
    | (Ret a, t1) => let (o, t2) := k a h in (o, (t1 ++ t2)%list)
    | (Raise e, t1) => (Raise e, t1)
    end.

Notation "x <- m ;; k" := (bind m (fun x => k))
  (at level 61, m at next level, right associativity).
Notation "m ;; k" := (bind m (fun _ => k))
  (at level 61, right associativity).

Definition raise {A} (e : exn) : M A := fun _ => (Raise e, []).

Definition print (line : list piece) : M unit := fun _ => (Ret tt, [EvPrint line]).

Definition enter (op : op_kind) (arg : json) : M unit :=
  fun _ => (Ret tt, [EvEnter op arg]).

(** An external call: it is issued, then either returns or raises. *)
Definition syscall (c : call) : M unit :=
  fun h =>
    match raises h c with
    | None => (Ret tt, [EvCall c])
    | Some msg => (Raise (PyExc HostError msg), [EvCall c])
    end.

Definition os_path_expanduser (p : string) : M string :=
  fun h => (Ret (expanduser h p), []).

(** [try: m except ...]: the handler returns [None] for an exception it
    does not catch, which then propagates. *)
Definition try_except {A} (m : M A) (handler : exn -> option (M A)) : M A :=
  fun h =>
    match m h with
    | (Ret a, t1) => (Ret a, t1)
    | (Raise e, t1) =>
        match handler e with
        | Some k => let (o, t2) := k h in (o, (t1 ++ t2)%list)
        | None => (Raise e, t1)
        end
    end.

(** [except Exception as e:] catches every exception but [SystemExit]. *)
Definition except_exception {A} (k : string -> M A) (e : exn) : option (M A) :=
  match e with
  | PyExc _ msg => Some (k msg)
  | SystemExit _ => None
  end.

Definition sys_exit {A} (code : Z) : M A := raise (SystemExit code).

(** [str.lower()] on a value: a [str] is lower-cased, anything else has no
    attribute [lower]. *)
Definition py_str_lower (v : json) : M string :=
  match v with
  | JStr s => fun h => (Ret (str_lower h s), [])
  | _ => raise (PyExc AttributeError
                  ("'" ++ py_type_name v ++ "' object has no attribute 'lower'"))
  end.

(** [v.get(key, default)]: only a dict has [get]. *)
Definition py_get (v : json) (key : string) (default : json) : M json :=
  match v with
  | JObj fields => ret (dict_get fields key default)
  | _ => raise (PyExc AttributeError
                  ("'" ++ py_type_name v ++ "' object has no attribute 'get'"))
  end.

(** ** automation.py *)

Definition search_google (query : json) : M bool :=
  enter SearchGoogle query ;;
  print [PLit "[JARVIS] Searching Google for: '"; PVal query; PLit "'"] ;;
  syscall (WebOpen (JStr "https://www.google.com")) ;;
  syscall (Sleep 2) ;;
  syscall (TypeWrite query) ;;
  syscall (KeyPress "enter") ;;
  print [PLit "[JARVIS] Search completed for: '"; PVal query; PLit "'"] ;;
  ret true.

Definition open_web_app (url : json) : M bool :=
  enter OpenWebApp url ;;
  print [PLit "[JARVIS] Opening web app: "; PVal url] ;;
  syscall (WebOpen url) ;;
  print [PLit "[JARVIS] Opened web app: "; PVal url] ;;
  ret true.

(** The [if]/[elif] chain inside the [try] of [open_desktop_app]; it yields
    the value assigned to [success]. *)
Definition launch_desktop_app (app_name : string) : M bool :=
  if String.eqb app_name "spotify" then
    app_path <- os_path_expanduser "~\AppData\Roaming\Spotify\Spotify.exe" ;;
    syscall (Popen [app_path]) ;;
    ret true
  else if String.eqb app_name "notepad" then
    syscall (Popen ["notepad"]) ;;
    ret true
  else if String.eqb app_name "calculator" then
    syscall (Popen ["calc"]) ;;
    ret true
  else if (String.eqb app_name "vscode" || String.eqb app_name "visual studio code")%bool then
    syscall (Popen ["code"]) ;;
    ret true
  else if (String.eqb app_name "explorer" || String.eqb app_name "file explorer")%bool then
    syscall (Popen ["explorer"]) ;;
    ret true
  else
    syscall (Popen [app_name]) ;;
    ret true.

Definition open_desktop_app (app_name : json) : M bool :=
  enter OpenDesktopApp app_name ;;
  print [PLit "[JARVIS] Launching desktop app: "; PVal app_name] ;;
  name <- py_str_lower app_name ;;
  try_except
    (success <- launch_desktop_app name ;;
     print [PLit "[JARVIS] Successfully launched: "; PLit name] ;;
     ret success)
    (except_exception (fun msg =>
       print [PLit "[JARVIS] Error launching "; PLit name; PLit ": "; PLit msg] ;;
       ret false)).

(** The executor operation of each kind, the [action] string that selects
    it and the key of its required parameter. *)
Definition executor (k : op_kind) : json -> M bool :=
  match k with
  | SearchGoogle => search_google
  | OpenWebApp => open_web_app
  | OpenDesktopApp => open_desktop_app
  end.

Definition action_name (k : op_kind) : string :=
  match k with
  | SearchGoogle => "search_google"
  | OpenWebApp => "open_web_app"
  | OpenDesktopApp => "open_desktop_app"
  end.

Definition required_key (k : op_kind) : string :=
  match k with
  | SearchGoogle => "query"
  | OpenWebApp => "url"
  | OpenDesktopApp => "app_name"
  end.

(** ** Entry points: exit status of a script

    A normal return exits with 0, [sys.exit(c)] with [c], and an uncaught
    exception with 1. *)
Definition exit_code (o : outcome unit) : Z :=
  match o with
  | Ret _ => 0
  | Raise (SystemExit c) => c
  | Raise (PyExc _ _) => 1
  end.

Definition run_script (m : M unit) (h : host) : Z * list event :=
  let (o, t) := m h in (exit_code o, t).

(** ** action_processor.py *)

Section ActionProcessor.

(** [json.loads]: [None] when the text is not valid JSON. *)
Variable json_loads : string -> option json.

Definition json_loads_m (s : string) : M json :=
  match json_loads s with
  | Some v => ret v
  | None => raise (PyExc JSONDecodeError "Expecting value")
  end.

Definition process_action (action_json : string) : M bool :=
  try_except
    (action_data <- json_loads_m action_json ;;
     action_type <- py_get action_data "action" JNull ;;
     params <- py_get action_data "params" (JObj []) ;;
     if negb (truthy action_type) then
       print [PLit "Error: No action specified in the JSON"] ;;
       ret false
     else if is_str action_type "search_google" then
       query <- py_get params "query" JNull ;;
       if negb (truthy query) then
         print [PLit "Error: No query provided for search_google action"] ;;
         ret false
       else search_google query
     else if is_str action_type "open_web_app" then
       url <- py_get params "url" JNull ;;
       if negb (truthy url) then
         print [PLit "Error: No URL provided for open_web_app action"] ;;
         ret false
       else open_web_app url
     else if is_str action_type "open_desktop_app" then
       app_name <- py_get params "app_name" JNull ;;
       if negb (truthy app_name) then
         print [PLit "Error: No app_name provided for open_desktop_app action"] ;;
         ret false
       else open_desktop_app app_name
     else
       print [PLit "Error: Unknown action type '"; PVal action_type; PLit "'"] ;;
       ret false)
    (fun e =>
       match e with
       | PyExc JSONDecodeError _ =>
           Some (print [PLit "Error: Invalid JSON format: "; PLit action_json] ;;
                 ret false)
       | _ =>
           except_exception (fun msg =>
             print [PLit "Error processing action: "; PLit msg] ;;
             ret false) e
       end).

(** A double quote character. *)
Definition dq : string := String (ascii_of_nat 34) EmptyString.

(** The usage text that line 70 of action_processor.py spells, JSON double
    quotes included.  As written, that line does not compile (its inner
    double quotes end the literal, see [action_processor_script]); this is
    the text it evidently means to print. *)
Definition processor_usage_text : string :=
  "Usage: python action_processor.py '{" ++ dq ++ "action" ++ dq ++ ": " ++ dq ++
  "search_google" ++ dq ++ ", " ++ dq ++ "params" ++ dq ++ ": {" ++ dq ++ "query" ++
  dq ++ ": " ++ dq ++ "example" ++ dq ++ "}}'".

(** [main()] of action_processor.py, [argv] being [sys.argv], read as its
    body means it (the usage line as [processor_usage_text]). *)
Definition main (argv : list string) : M unit :=
  if Nat.ltb (length argv) 2 then
    print [PLit "Error: No action JSON provided"] ;;
    print [PLit processor_usage_text] ;;
    sys_exit 1
  else
    success <- process_action (nth 1 argv "") ;;
    if negb success then sys_exit 1 else ret tt.

End ActionProcessor.

(** Running [python action_processor.py ...] as the file stands: line 70,
    [print("Usage: python action_processor.py '{"action": ...}'")], closes
    the string literal at the second double quote and is a syntax error, so
    the interpreter stops before executing any statement of the module. *)
Definition action_processor_script (argv : list string) : M unit :=
  raise (PyExc SyntaxError "invalid syntax").

(** ** automation_runner.py *)

Definition runner_main (argv : list string) : M unit :=
  if Nat.ltb (length argv) 3 then
    print [PLit "Error: Insufficient arguments"] ;;
    print [PLit "Usage: python automation_runner.py <command_type> <parameter>"] ;;
    sys_exit 1
  else
    let command_type := nth 1 argv "" in
    let parameter := nth 2 argv "" in
    try_except
      (if String.eqb command_type "search_google" then
         _ <- search_google (JStr parameter) ;; ret tt
       else if String.eqb command_type "open_web_app" then
         _ <- open_web_app (JStr parameter) ;; ret tt
       else if String.eqb command_type "open_desktop_app" then
         _ <- open_desktop_app (JStr parameter) ;; ret tt
       else
         print [PLit "Error: Unknown command type '"; PLit command_type; PLit "'"] ;;
         sys_exit 1)
      (except_exception (fun msg =>
         print [PLit "Error executing "; PLit command_type; PLit ": "; PLit msg] ;;
         sys_exit 1)).

(** ** Observations on traces *)

(** The executor operations entered, in order. *)
Fixpoint enters (t : list event) : list (op_kind * json) :=
  match t with
  | [] => []
  | EvEnter k a :: rest => (k, a) :: enters rest
  | _ :: rest => enters rest
  end.

(** The external calls issued, in order. *)
Fixpoint calls (t : list event) : list call :=
  match t with
  | [] => []
  | EvCall c :: rest => c :: calls rest
  | _ :: rest => calls rest
  end.

Definition quiet_host : host :=
  {| raises := fun _ => None; expanduser := fun p => p; str_lower := ascii_lower |}.

Example lower_notepad : ascii_lower "NotePad" = "notepad".
Proof. reflexivity. Qed.

Example scenario3 :
  process_action (fun _ => Some (JObj [("action", JStr "open_desktop_app");
                                       ("params", JObj [("app_name", JStr "Notepad")])]))
    "x" quiet_host
  = (Ret true, [EvEnter OpenDesktopApp (JStr "Notepad");
                EvPrint [PLit "[JARVIS] Launching desktop app: "; PVal (JStr "Notepad")];
                EvCall (Popen ["notepad"]);
                EvPrint [PLit "[JARVIS] Successfully launched: "; PLit "notepad"]]).
Proof. reflexivity. Qed.

(** ** Reasoning about the monad *)

Open Scope list_scope.

Lemma enters_app (t1 t2 : list event) : enters (t1 ++ t2) = enters t1 ++ enters t2.
Proof. induction t1 as [|[] t1 IH]; simpl; rewrite ?IH; reflexivity. Qed.

Lemma calls_app (t1 t2 : list event) : calls (t1 ++ t2) = calls t1 ++ calls t2.
Proof. induction t1 as [|[] t1 IH]; simpl; rewrite ?IH; reflexivity. Qed.

(** The exceptions the executor can raise: a subclass of [Exception] from
    the host or an [AttributeError], never [SystemExit] nor a JSON error. *)
Definition ordinary_exn (e : exn) : Prop :=
  exists c msg, e = PyExc c msg /\ (c = HostError \/ c = AttributeError).

Definition safe {A} (m : M A) : Prop :=
  forall h e t, m h = (Raise e, t) -> ordinary_exn e.

(** A computation that enters no executor operation. *)
Definition no_enter {A} (m : M A) : Prop :=
  forall h, enters (snd (m h)) = [].

Create HintDb monad.

Lemma safe_ret {A} (a : A) : safe (ret a).
Proof. intros h e t H; discriminate. Qed.

Lemma safe_print l : safe (print l).
Proof. intros h e t H; discriminate. Qed.

Lemma safe_enter k a : safe (enter k a).
Proof. intros h e t H; discriminate. Qed.

Lemma safe_syscall c : safe (syscall c).
Proof.
  intros h e t H; unfold syscall in H; destruct (raises h c); inversion H.
  exists HostError, s; auto.
Qed.

Lemma safe_expanduser p : safe (os_path_expanduser p).
Proof. intros h e t H; discriminate. Qed.

Lemma safe_py_str_lower v : safe (py_str_lower v).
Proof.
  intros h e t H; destruct v; inversion H; eexists _, _; split; eauto.
Qed.

Lemma safe_bind {A B} (m : M A) (k : A -> M B) :
  safe m -> (forall a, safe (k a)) -> safe (bind m k).
Proof.
  intros Hm Hk h e t H; unfold bind in H.
  destruct (m h) as [[a|e'] t1] eqn:E.
  - destruct (k a h) as [o t2] eqn:E2; inversion H; subst; eapply Hk; exact E2.
  - inversion H; subst; eapply Hm; exact E.
Qed.

Lemma safe_try_except {A} (m : M A) handler :
  safe m -> (forall e k, handler e = Some k -> safe k) -> safe (try_except m handler).
Proof.
  intros Hm Hh h e t H; unfold try_except in H.
  destruct (m h) as [[a|e'] t1] eqn:E; [discriminate|].
  destruct (handler e') as [k|] eqn:Eh.
  - destruct (k h) as [o t2] eqn:E2; inversion H; subst; eapply Hh; eassumption.
  - inversion H; subst; eapply Hm; exact E.
Qed.

Lemma safe_if {A} (b : bool) (m1 m2 : M A) : safe m1 -> safe m2 -> safe (if b then m1 else m2).
Proof. destruct b; auto. Qed.

Lemma no_enter_ret {A} (a : A) : no_enter (ret a).
Proof. intros h; reflexivity. Qed.

Lemma no_enter_print l : no_enter (print l).
Proof. intros h; reflexivity. Qed.

Lemma no_enter_syscall c : no_enter (syscall c).
Proof. intros h; unfold syscall; destruct (raises h c); reflexivity. Qed.

Lemma no_enter_expanduser p : no_enter (os_path_expanduser p).
Proof. intros h; reflexivity. Qed.

Lemma no_enter_py_str_lower v : no_enter (py_str_lower v).
Proof. intros h; destruct v; reflexivity. Qed.

Lemma no_enter_bind {A B} (m : M A) (k : A -> M B) :
  no_enter m -> (forall a, no_enter (k a)) -> no_enter (bind m k).
Proof.
  intros Hm Hk h; unfold bind; specialize (Hm h).
  destruct (m h) as [[a|e] t1]; simpl in *; auto.
  specialize (Hk a h); destruct (k a h) as [o t2]; simpl in *.
  rewrite enters_app, Hm, Hk; reflexivity.
Qed.

Lemma no_enter_try_except {A} (m : M A) handler :
  no_enter m -> (forall e k, handler e = Some k -> no_enter k) ->
  no_enter (try_except m handler).
Proof.
  intros Hm Hh h; unfold try_except; specialize (Hm h).
  destruct (m h) as [[a|e] t1]; simpl in *; auto.
  destruct (handler e) as [k|] eqn:E; simpl; auto.
  specialize (Hh e k E h); destruct (k h) as [o t2]; simpl in *.
  rewrite enters_app, Hm, Hh; reflexivity.
Qed.

Lemma no_enter_if {A} (b : bool) (m1 m2 : M A) :
  no_enter m1 -> no_enter m2 -> no_enter (if b then m1 else m2).
Proof. destruct b; auto. Qed.

Lemma except_exception_some {A} (k : string -> M A) e k' :
  except_exception k e = Some k' -> exists msg, k' = k msg.
Proof. destruct e; simpl; intros H; inversion H; eauto. Qed.

#[local] Hint Resolve safe_ret safe_print safe_enter safe_syscall safe_expanduser
  safe_py_str_lower safe_bind safe_if no_enter_ret no_enter_print
  no_enter_syscall no_enter_expanduser no_enter_py_str_lower no_enter_bind
  no_enter_if : monad.

Ltac handler_case :=
  intros ? ? Hh; apply except_exception_some in Hh;
  destruct Hh as [? ->]; auto with monad.

Lemma launch_desktop_app_safe n : safe (launch_desktop_app n).
Proof. unfold launch_desktop_app; auto 20 with monad. Qed.

Lemma launch_desktop_app_no_enter n : no_enter (launch_desktop_app n).
Proof. unfold launch_desktop_app; auto 20 with monad. Qed.

#[local] Hint Resolve launch_desktop_app_safe launch_desktop_app_no_enter : monad.

Lemma executor_safe k v : safe (executor k v).
Proof.
  destruct k; simpl; unfold search_google, open_web_app, open_desktop_app;
    auto 20 with monad.
  apply safe_bind; auto with monad; intros _.
  apply safe_bind; auto with monad; intros _.
  apply safe_bind; auto with monad; intros n.
  apply safe_try_except; auto with monad; handler_case.
Qed.

Lemma enter_then_enters {A} k v (m : M A) h :
  no_enter m -> enters (snd (bind (enter k v) (fun _ => m) h)) = [(k, v)].
Proof.
  intros Hm; unfold bind, enter; specialize (Hm h).
  destruct (m h) as [o t]; simpl in *; rewrite Hm; reflexivity.
Qed.

Lemma executor_enters k v h : enters (snd (executor k v h)) = [(k, v)].
Proof.
  destruct k; simpl; unfold search_google, open_web_app, open_desktop_app;
    apply enter_then_enters; auto 20 with monad.
  apply no_enter_bind; auto with monad; intros _.
  apply no_enter_bind; auto with monad; intros n.
  apply no_enter_try_except; auto with monad; handler_case.
Qed.

(** What [process_action] does with a descriptor of a recognized kind whose
    required parameter is truthy: it runs that kind's executor operation and
    turns an exception into [False] with a message. *)
Lemma process_action_dispatch json_loads s h fields k pf v :
  json_loads s = Some (JObj fields) ->
  dict_get fields "action" JNull = JStr (action_name k) ->
  dict_get fields "params" (JObj []) = JObj pf ->
  dict_get pf (required_key k) JNull = v ->
  truthy v = true ->
  process_action json_loads s h =
    match executor k v h with
    | (Ret b, t) => (Ret b, t)
    | (Raise e, t) =>
        match e with
        | PyExc JSONDecodeError _ =>
            (Ret false, t ++ [EvPrint [PLit "Error: Invalid JSON format: "; PLit s]])
        | PyExc _ msg =>
            (Ret false, t ++ [EvPrint [PLit "Error processing action: "; PLit msg]])
        | SystemExit c => (Raise (SystemExit c), t)
        end
    end.
Proof.
  intros Hs Ha Hp Hv Ht.
  unfold process_action, try_except, bind at 1, json_loads_m; rewrite Hs.
  unfold ret at 1, bind at 1, py_get at 1; rewrite Ha.
  unfold ret at 1, bind at 1, py_get at 1; rewrite Hp.
  unfold ret at 1.
  destruct k; simpl in Hv |- *; unfold bind at 1, ret at 1; rewrite Hv, Ht; simpl;
    destruct (_ v h) as [[b|[[] msg|c]] t]; simpl; reflexivity.
Qed.

(** A computation whose exceptions are all subclasses of [Exception], so
    that [except Exception] catches them. *)
Definition catchable {A} (m : M A) : Prop :=
  forall h e t, m h = (Raise e, t) -> exists c msg, e = PyExc c msg.

Lemma safe_catchable {A} (m : M A) : safe m -> catchable m.
Proof. intros Hm h e t H; destruct (Hm h e t H) as (c & msg & -> & _); eauto. Qed.

Lemma catchable_ret {A} (a : A) : catchable (ret a).
Proof. intros h e t H; discriminate. Qed.

Lemma catchable_print l : catchable (print l).
Proof. intros h e t H; discriminate. Qed.

Lemma catchable_json_loads_m jl s : catchable (json_loads_m jl s).
Proof. intros h e t H; unfold json_loads_m in H; destruct (jl s); inversion H; eauto. Qed.

Lemma catchable_py_get v k d : catchable (py_get v k d).
Proof. intros h e t H; destruct v; inversion H; eauto. Qed.

Lemma catchable_bind {A B} (m : M A) (k : A -> M B) :
  catchable m -> (forall a, catchable (k a)) -> catchable (bind m k).
Proof.
  intros Hm Hk h e t H; unfold bind in H.
  destruct (m h) as [[a|e'] t1] eqn:E.
  - destruct (k a h) as [o t2] eqn:E2; inversion H; subst; eapply Hk; exact E2.
  - inversion H; subst; eapply Hm; exact E.
Qed.

Lemma catchable_if {A} (b : bool) (m1 m2 : M A) :
  catchable m1 -> catchable m2 -> catchable (if b then m1 else m2).
Proof. destruct b; auto. Qed.

Lemma catchable_executor k v : catchable (executor k v).
Proof. apply safe_catchable, executor_safe. Qed.

Lemma catchable_search_google v : catchable (search_google v).
Proof. exact (catchable_executor SearchGoogle v). Qed.

Lemma catchable_open_web_app v : catchable (open_web_app v).
Proof. exact (catchable_executor OpenWebApp v). Qed.

Lemma catchable_open_desktop_app v : catchable (open_desktop_app v).
Proof. exact (catchable_executor OpenDesktopApp v). Qed.

#[local] Hint Resolve catchable_ret catchable_print catchable_json_loads_m
  catchable_py_get catchable_bind catchable_if catchable_search_google
  catchable_open_web_app catchable_open_desktop_app : monad.

Ltac catchable_steps :=
  repeat match goal with
  | |- catchable (bind _ _) => apply catchable_bind
  | |- catchable (if _ then _ else _) => apply catchable_if
  | |- forall _, _ => intro
  end; auto with monad.

(** A [try] whose handler catches every [Exception] never raises when its
    body raises only such exceptions. *)
Lemma try_except_total {A} (m : M A) handler h :
  catchable m ->
  (forall c msg, exists k, handler (PyExc c msg) = Some k /\
     forall h', exists a t, k h' = (Ret a, t)) ->
  exists a, fst (try_except m handler h) = Ret a.
Proof.
  intros Hm Hh; unfold try_except.
  destruct (m h) as [[a|e] t1] eqn:E; [simpl; eauto|].
  destruct (Hm h e t1 E) as (c & msg & ->).
  destruct (Hh c msg) as (k & -> & Hk).
  destruct (Hk h) as (a & t & ->); simpl; eauto.
Qed.

(** ** Claims about process_action *)

(** C1: for a descriptor whose [action] is one of the three recognized
    kinds and whose required parameter ([query], [url], [app_name]) is a
    non-empty string, [process_action] enters exactly one executor
    operation, the one of that kind with that parameter, and returns the
    boolean that operation returns. *)
Theorem process_action_one_executor json_loads s h fields k pf p :
  json_loads s = Some (JObj fields) ->
  dict_get fields "action" JNull = JStr (action_name k) ->
  dict_get fields "params" (JObj []) = JObj pf ->
  dict_get pf (required_key k) JNull = JStr p ->
  p <> "" ->
  enters (snd (process_action json_loads s h)) = [(k, JStr p)] /\
  (forall b t, executor k (JStr p) h = (Ret b, t) ->
     process_action json_loads s h = (Ret b, t)).
Proof.
  intros Hs Ha Hp Hv Hne.
  assert (Ht : truthy (JStr p) = true)
    by (simpl; apply negb_true_iff, String.eqb_neq; exact Hne).
  rewrite (process_action_dispatch json_loads s h fields k pf (JStr p) Hs Ha Hp Hv Ht).
  pose proof (executor_enters k (JStr p) h) as He.
  pose proof (executor_safe k (JStr p) h) as Hsafe.
  destruct (executor k (JStr p) h) as [[b|e] t]; simpl in He |- *.
  - split; [exact He|]. intros b' t' H; inversion H; reflexivity.
  - destruct (Hsafe e t eq_refl) as (c & msg & -> & [-> | ->]); simpl;
      (split; [rewrite enters_app, He; reflexivity | intros b' t' H; discriminate]).
Qed.

Lemma process_action_one_executor_witness :
  enters (snd (process_action
    (fun _ => Some (JObj [("action", JStr "search_google");
                          ("params", JObj [("query", JStr "weather today")])]))
    "q" quiet_host)) = [(SearchGoogle, JStr "weather today")].
Proof.
  apply (process_action_one_executor _ "q" quiet_host
           [("action", JStr "search_google");
            ("params", JObj [("query", JStr "weather today")])]
           SearchGoogle [("query", JStr "weather today")] "weather today");
    try reflexivity; discriminate.
Defined.

(** C7: [process_action] never lets an exception reach its caller: every run
    returns a boolean.  On a recognized dispatch it returns the boolean the
    executor operation returns, and an exception raised by that operation
    becomes [False], with a printed line carrying the exception's message. *)
Theorem process_action_never_raises json_loads s h :
  (exists b, fst (process_action json_loads s h) = Ret b) /\
  (forall fields k pf v,
     json_loads s = Some (JObj fields) ->
     dict_get fields "action" JNull = JStr (action_name k) ->
     dict_get fields "params" (JObj []) = JObj pf ->
     dict_get pf (required_key k) JNull = v ->
     truthy v = true ->
     (forall b t, executor k v h = (Ret b, t) ->
        process_action json_loads s h = (Ret b, t)) /\
     (forall c msg t, executor k v h = (Raise (PyExc c msg), t) ->
        process_action json_loads s h =
          (Ret false, t ++ [EvPrint [PLit "Error processing action: "; PLit msg]]))).
Proof.
  split.
  - unfold process_action; apply try_except_total.
    + catchable_steps.
    + intros [] msg; (eexists; split; [reflexivity | intros h'; eexists _, _; reflexivity]).
  - intros fields k pf v Hs Ha Hp Hv Ht.
    rewrite (process_action_dispatch json_loads s h fields k pf v Hs Ha Hp Hv Ht).
    pose proof (executor_safe k v h) as Hsafe.
    split.
    + intros b t ->; reflexivity.
    + intros c msg t E; rewrite E.
      destruct (Hsafe _ _ E) as (c' & msg' & Heq & [-> | ->]);
        inversion Heq; subst; reflexivity.
Qed.

(** C10: valid JSON that is not an object makes [process_action] return
    [False]: [.get] raises [AttributeError], which the catch-all handler
    turns into [False]; no executor operation is entered and no external
    call is issued. *)
Theorem process_action_non_object json_loads s h v :
  json_loads s = Some v ->
  (forall fields, v <> JObj fields) ->
  process_action json_loads s h =
    (Ret false, [EvPrint [PLit "Error processing action: ";
                          PLit ("'" ++ py_type_name v ++ "' object has no attribute 'get'")%string]]) /\
  enters (snd (process_action json_loads s h)) = [] /\
  calls (snd (process_action json_loads s h)) = [].
Proof.
  intros Hs Hv.
  assert (E : process_action json_loads s h =
    (Ret false, [EvPrint [PLit "Error processing action: ";
                          PLit ("'" ++ py_type_name v ++ "' object has no attribute 'get'")%string]])).
  { unfold process_action, try_except, bind at 1, json_loads_m; rewrite Hs.
    destruct v; try (exfalso; eapply Hv; reflexivity); reflexivity. }
  rewrite E; repeat split.
Qed.

Lemma process_action_non_object_witness :
  fst (process_action (fun _ => Some (JArr [JNum 1])) "[1]" quiet_host) = Ret false.
Proof.
  destruct (process_action_non_object (fun _ => Some (JArr [JNum 1])) "[1]" quiet_host
              (JArr [JNum 1]) eq_refl ltac:(discriminate)) as [-> _].
  reflexivity.
Defined.

Lemma process_action_never_raises_witness :
  fst (process_action
         (fun _ => Some (JObj [("action", JStr "open_desktop_app");
                               ("params", JObj [("app_name", JStr "ghost")])]))
         "d" {| raises := fun _ => Some "not found"; expanduser := fun p => p;
                  str_lower := ascii_lower |})
  = Ret false.
Proof.
  destruct (process_action_never_raises
              (fun _ => Some (JObj [("action", JStr "open_desktop_app");
                                    ("params", JObj [("app_name", JStr "ghost")])]))
              "d" {| raises := fun _ => Some "not found"; expanduser := fun p => p;
                  str_lower := ascii_lower |})
    as [_ H].
  destruct (H _ OpenDesktopApp _ (JStr "ghost") eq_refl eq_refl eq_refl eq_refl eq_refl)
    as [Hok _].
  rewrite (Hok false _ eq_refl); reflexivity.
Defined.

(** C6: text that is not valid JSON makes [process_action] return [False]
    with the invalid-JSON message, before any executor operation or external
    call; the single-argument entry point then exits with status 1.  (As the
    file stands, [action_processor.py] does not even compile, and running it
    also ends with status 1 and no effect.) *)
Theorem process_action_malformed json_loads s h argv :
  json_loads s = None ->
  process_action json_loads s h =
    (Ret false, [EvPrint [PLit "Error: Invalid JSON format: "; PLit s]]) /\
  (2 <= length argv -> nth 1 argv "" = s ->
   run_script (main json_loads argv) h =
     (1%Z, [EvPrint [PLit "Error: Invalid JSON format: "; PLit s]])) /\
  run_script (action_processor_script argv) h = (1%Z, []).
Proof.
  intros Hs.
  assert (E : process_action json_loads s h =
                (Ret false, [EvPrint [PLit "Error: Invalid JSON format: "; PLit s]])).
  { unfold process_action, try_except, bind at 1, json_loads_m; rewrite Hs; reflexivity. }
  split; [exact E|]. split; [|reflexivity].
  intros Hlen Harg.
  unfold run_script, main.
  destruct (Nat.ltb_spec (length argv) 2); [exfalso; apply (Nat.lt_irrefl 2);
    eapply Nat.le_lt_trans; eassumption|].
  unfold bind at 1; rewrite Harg, E; reflexivity.
Qed.

Lemma process_action_malformed_witness :
  run_script (main (fun _ => None) ["action_processor.py"; "not valid json"]) quiet_host
  = (1%Z, [EvPrint [PLit "Error: Invalid JSON format: "; PLit "not valid json"]]).
Proof.
  destruct (process_action_malformed (fun _ => None) "not valid json" quiet_host
              ["action_processor.py"; "not valid json"] eq_refl) as (_ & H & _).
  apply H; [simpl; auto | reflexivity].
Defined.

(** The line printed when the required parameter of a kind is missing. *)
Definition missing_param_message (k : op_kind) : list piece :=
  match k with
  | SearchGoogle => [PLit "Error: No query provided for search_google action"]
  | OpenWebApp => [PLit "Error: No URL provided for open_web_app action"]
  | OpenDesktopApp => [PLit "Error: No app_name provided for open_desktop_app action"]
  end.

(** C4: for a descriptor of a recognized kind whose required parameter is
    absent or the empty string, [process_action] returns [False] with the
    missing-parameter message and nothing else: no executor operation is
    entered and no external call (browser, typing, process) is issued. *)
Theorem process_action_missing_param json_loads s h fields k pf :
  json_loads s = Some (JObj fields) ->
  dict_get fields "action" JNull = JStr (action_name k) ->
  dict_get fields "params" (JObj []) = JObj pf ->
  dict_get pf (required_key k) JNull = JNull \/
  dict_get pf (required_key k) JNull = JStr "" ->
  process_action json_loads s h = (Ret false, [EvPrint (missing_param_message k)]) /\
  enters (snd (process_action json_loads s h)) = [] /\
  calls (snd (process_action json_loads s h)) = [].
Proof.
  intros Hs Ha Hp Hv.
  assert (E : process_action json_loads s h = (Ret false, [EvPrint (missing_param_message k)])).
  { unfold process_action, try_except, bind at 1, json_loads_m; rewrite Hs.
    unfold ret at 1, bind at 1, py_get at 1; rewrite Ha.
    unfold ret at 1, bind at 1, py_get at 1; rewrite Hp.
    unfold ret at 1.
    destruct k; simpl in Hv |- *; unfold bind at 1, ret at 1;
      destruct Hv as [-> | ->]; reflexivity. }
  rewrite E; repeat split.
Qed.

Lemma process_action_missing_param_witness :
  process_action
    (fun _ => Some (JObj [("action", JStr "search_google");
                          ("params", JObj [("query", JStr "")])]))
    "e" quiet_host
  = (Ret false, [EvPrint (missing_param_message SearchGoogle)]).
Proof.
  apply (process_action_missing_param _ "e" quiet_host
           [("action", JStr "search_google"); ("params", JObj [("query", JStr "")])]
           SearchGoogle [("query", JStr "")] eq_refl eq_refl eq_refl).
  right; reflexivity.
Defined.

(** A printed line of the trace shows the value [v]. *)
Definition reports (t : list event) (v : json) : Prop :=
  exists line, In (EvPrint line) t /\ In (PVal v) line.

(** C5, as stated: for a descriptor whose [action] is absent or not one of
    the three kinds, [process_action] returns [False] without entering an
    executor operation, and names the offending value when there is one.
    It fails for the present value [""]: the line printed is
    "Error: No action specified in the JSON", which does not show it. *)
Lemma process_action_unknown_action_counterexample :
  ~ (forall json_loads s h fields a,
       json_loads s = Some (JObj fields) ->
       dict_get fields "action" JNull = a ->
       (forall k, a <> JStr (action_name k)) ->
       fst (process_action json_loads s h) = Ret false /\
       enters (snd (process_action json_loads s h)) = [] /\
       (a <> JNull -> reports (snd (process_action json_loads s h)) a)).
Proof.
  intros H.
  destruct (H (fun _ => Some (JObj [("action", JStr "")])) "{'action': ''}" quiet_host
              [("action", JStr "")] (JStr "") eq_refl eq_refl
              ltac:(intros [] E; discriminate E)) as (_ & _ & Hrep).
  destruct (Hrep ltac:(discriminate)) as (line & Hin & Hv).
  simpl in Hin; destruct Hin as [Hin | []]; inversion Hin; subst.
  simpl in Hv; destruct Hv as [Hv | []]; discriminate Hv.
Qed.

(** The line printed for an [action] value that selects no kind. *)
Definition unknown_action_message (a : json) : list piece :=
  if truthy a then [PLit "Error: Unknown action type '"; PVal a; PLit "'"]
  else [PLit "Error: No action specified in the JSON"].

(** C5, amended: for a descriptor whose [action] is absent or not one of the
    three kinds, [process_action] returns [False] with one printed line and
    no executor operation or external call.  A truthy value is named in the
    line; an absent or falsy value ([null], [""], [0], [false], [[]], [{}])
    gets "No action specified in the JSON". *)
Theorem process_action_unknown_action json_loads s h fields a :
  json_loads s = Some (JObj fields) ->
  dict_get fields "action" JNull = a ->
  (forall k, a <> JStr (action_name k)) ->
  process_action json_loads s h = (Ret false, [EvPrint (unknown_action_message a)]) /\
  enters (snd (process_action json_loads s h)) = [] /\
  calls (snd (process_action json_loads s h)) = [].
Proof.
  intros Hs Ha Hk.
  assert (Hstr : forall k, is_str a (action_name k) = false).
  { intros k; destruct a as [| | |x| |]; try reflexivity; simpl.
    apply String.eqb_neq; intros ->; exact (Hk k eq_refl). }
  assert (E : process_action json_loads s h = (Ret false, [EvPrint (unknown_action_message a)])).
  { unfold process_action, try_except, bind at 1, json_loads_m; rewrite Hs.
    unfold ret at 1, bind at 1, py_get at 1; rewrite Ha.
    unfold ret at 1, bind at 1, py_get at 1, unknown_action_message.
    pose proof (Hstr SearchGoogle) as H1; pose proof (Hstr OpenWebApp) as H2;
      pose proof (Hstr OpenDesktopApp) as H3; simpl in H1, H2, H3.
    rewrite H1, H2, H3; destruct (truthy a); reflexivity. }
  rewrite E; repeat split.
Qed.

Lemma process_action_unknown_action_witness :
  process_action (fun _ => Some (JObj [("action", JStr "delete_everything")])) "x" quiet_host
  = (Ret false, [EvPrint [PLit "Error: Unknown action type '";
                          PVal (JStr "delete_everything"); PLit "'"]]).
Proof.
  apply (process_action_unknown_action _ "x" quiet_host
           [("action", JStr "delete_everything")] (JStr "delete_everything") eq_refl eq_refl).
  intros [] E; discriminate E.
Defined.

(** ** Claims about the executor *)

(** The alias table of [open_desktop_app]: the arguments handed to
    [subprocess.Popen] for a lower-cased application name. *)
Definition desktop_launch_args (h : host) (n : string) : list string :=
  if String.eqb n "spotify" then [expanduser h "~\AppData\Roaming\Spotify\Spotify.exe"]
  else if String.eqb n "notepad" then ["notepad"]
  else if String.eqb n "calculator" then ["calc"]
  else if (String.eqb n "vscode" || String.eqb n "visual studio code")%bool then ["code"]
  else if (String.eqb n "explorer" || String.eqb n "file explorer")%bool then ["explorer"]
  else [n].

Lemma launch_desktop_app_popen n h :
  launch_desktop_app n h =
    match raises h (Popen (desktop_launch_args h n)) with
    | None => (Ret true, [EvCall (Popen (desktop_launch_args h n))])
    | Some msg => (Raise (PyExc HostError msg), [EvCall (Popen (desktop_launch_args h n))])
    end.
Proof.
  unfold launch_desktop_app, desktop_launch_args.
  repeat match goal with
         | |- context [if ?b then _ else _] => destruct b
         end;
    unfold bind, os_path_expanduser, syscall, ret; simpl;
    destruct (raises h _); reflexivity.
Qed.

(** C3: [open_desktop_app] lower-cases [app_name] and looks it up in the
    alias table ([spotify] to the path under the user profile, [notepad],
    [calculator] to [calc], [vscode] and [visual studio code] to [code],
    [explorer] and [file explorer] to [explorer]); any other name launches
    the process named by the (lower-cased) [app_name] itself; the
    lowering is the runtime's [str.lower] ([str_lower h]).  The only
    external call is that one process creation, nothing waits for the
    process, and the result is [False] exactly when the creation raises. *)
Theorem open_desktop_app_launch a h :
  calls (snd (open_desktop_app (JStr a) h)) =
    [Popen (desktop_launch_args h (str_lower h a))] /\
  fst (open_desktop_app (JStr a) h) =
    match raises h (Popen (desktop_launch_args h (str_lower h a))) with
    | Some _ => Ret false
    | None => Ret true
    end.
Proof.
  unfold open_desktop_app, bind, enter, print, py_str_lower, ret, try_except.
  rewrite launch_desktop_app_popen.
  destruct (raises h _); split; reflexivity.
Qed.

(** The sequence issued by [search_google], in order. *)
Definition search_google_calls (query : json) : list call :=
  [WebOpen (JStr "https://www.google.com"); Sleep 2; TypeWrite query; KeyPress "enter"].

(** The outcome of an executor operation that never reports failure: it
    returns [True] or propagates an exception of the host; when none of the
    calls it issues raises, it returns [True] after issuing [cs]. *)
Definition never_false (r : outcome bool * list event) (h : host) (cs : list call) : Prop :=
  (fst r = Ret true \/ exists msg, fst r = Raise (PyExc HostError msg)) /\
  ((forall c, In c (calls (snd r)) -> raises h c = None) ->
   fst r = Ret true /\ calls (snd r) = cs).

Ltac settle_never_false h :=
  unfold never_false, bind, enter, print, syscall, ret; simpl;
  repeat match goal with
         | |- context [raises h ?c] => destruct (raises h c) eqn:?; simpl
         end;
  (split; [eauto | intro]);
  first
    [ split; reflexivity
    | exfalso;
      match goal with
      | A : forall c, _ -> raises h c = None, E : raises h ?c = Some _ |- _ =>
          rewrite A in E; [discriminate E | simpl; tauto]
      end ].

Lemma search_google_never_false q h :
  never_false (search_google q h) h (search_google_calls q).
Proof. unfold search_google, search_google_calls; settle_never_false h. Qed.

Lemma open_web_app_never_false u h : never_false (open_web_app u h) h [WebOpen u].
Proof. unfold open_web_app; settle_never_false h. Qed.

(** C9: [search_google] and [open_web_app] never return [False]: they
    return [True] or propagate an exception of the host; and when none of
    the calls they issue raises, they return [True]. *)
Theorem search_and_web_never_false q u h :
  never_false (search_google q h) h (search_google_calls q) /\
  never_false (open_web_app u h) h [WebOpen u].
Proof. split; [apply search_google_never_false | apply open_web_app_never_false]. Qed.

(** ** Claims about the two-argument entry point *)

(** C8: [automation_runner.py] given fewer than two arguments (so
    [len(sys.argv) < 3]) prints the usage error and exits with status 1,
    entering no executor operation and issuing no external call. *)
Theorem runner_usage_error argv h :
  length argv < 3 ->
  run_script (runner_main argv) h =
    (1%Z, [EvPrint [PLit "Error: Insufficient arguments"];
           EvPrint [PLit "Usage: python automation_runner.py <command_type> <parameter>"]]) /\
  enters (snd (run_script (runner_main argv) h)) = [] /\
  calls (snd (run_script (runner_main argv) h)) = [].
Proof.
  intros Hlen.
  assert (E : run_script (runner_main argv) h =
    (1%Z, [EvPrint [PLit "Error: Insufficient arguments"];
           EvPrint [PLit "Usage: python automation_runner.py <command_type> <parameter>"]])).
  { unfold run_script, runner_main.
    apply Nat.ltb_lt in Hlen; rewrite Hlen; reflexivity. }
  rewrite E; repeat split.
Qed.

Lemma runner_usage_error_witness :
  fst (run_script (runner_main ["automation_runner.py"; "open_desktop_app"]) quiet_host) = 1%Z.
Proof.
  destruct (runner_usage_error ["automation_runner.py"; "open_desktop_app"] quiet_host
              ltac:(simpl; auto)) as [-> _].
  reflexivity.
Defined.

(** A host on which process creation fails, as for a name that is not an
    installed program. *)
Definition no_such_program_host : host :=
  {| raises := fun c => match c with
                        | Popen _ => Some "[WinError 2] The system cannot find the file specified"
                        | _ => None
                        end;
     expanduser := fun p => p;
     str_lower := ascii_lower |}.

(** C2: [open_desktop_app] reports the failed launch by returning [False],
    and the single-argument path turns [False] into status 1 ([main] of
    action_processor.py), but [automation_runner.py] drops the returned
    value: the two-argument invocation [open_desktop_app nonexistent_app]
    whose launch fails exits with status 0. *)
Theorem runner_launch_failure_exit_zero :
  fst (open_desktop_app (JStr "nonexistent_app") no_such_program_host) = Ret false /\
  fst (run_script (main (fun _ => Some (JObj [("action", JStr "open_desktop_app");
                                              ("params", JObj [("app_name", JStr "nonexistent_app")])]))
                        ["action_processor.py"; "x"]) no_such_program_host) = 1%Z /\
  run_script (runner_main ["automation_runner.py"; "open_desktop_app"; "nonexistent_app"])
    no_such_program_host =
    (0%Z, [EvEnter OpenDesktopApp (JStr "nonexistent_app");
           EvPrint [PLit "[JARVIS] Launching desktop app: "; PVal (JStr "nonexistent_app")];
           EvCall (Popen ["nonexistent_app"]);
           EvPrint [PLit "[JARVIS] Error launching "; PLit "nonexistent_app"; PLit ": ";
                    PLit "[WinError 2] The system cannot find the file specified"]]).
Proof. repeat split; reflexivity. Qed.

(** ** Further properties of the entry points and the dispatcher *)

(** The line [automation_runner.py] prints when an operation raises. *)
Definition runner_error_line (command_type msg : string) : event :=
  EvPrint [PLit "Error executing "; PLit command_type; PLit ": "; PLit msg].

(** The two-argument entry point with a recognized command type runs that
    kind's operation on the parameter as a string.  It exits with 0 whenever
    the operation returns, whatever it returns, and with 1 after the error
    line when the operation raises. *)
Theorem runner_known_command argv h k :
  3 <= length argv ->
  nth 1 argv "" = action_name k ->
  run_script (runner_main argv) h =
    match executor k (JStr (nth 2 argv "")) h with
    | (Ret _, t) => (0%Z, t)
    | (Raise (PyExc _ msg), t) => (1%Z, t ++ [runner_error_line (action_name k) msg])
    | (Raise (SystemExit c), t) => (c, t)
    end.
Proof.
  intros Hlen Hct.
  unfold run_script, runner_main.
  destruct (Nat.ltb_spec (length argv) 3) as [Hlt|_];
    [exfalso; apply (Nat.lt_irrefl 3); eapply Nat.le_lt_trans; eassumption|].
  rewrite Hct; unfold try_except, bind.
  destruct k; simpl;
    destruct (_ (JStr (nth 2 argv "")) h) as [[b|[c msg|code]] t]; simpl;
    rewrite ?app_nil_r; reflexivity.
Qed.

Lemma runner_known_command_witness :
  run_script (runner_main ["automation_runner.py"; "open_web_app"; "https://example.com"])
    quiet_host
  = (0%Z, [EvEnter OpenWebApp (JStr "https://example.com");
           EvPrint [PLit "[JARVIS] Opening web app: "; PVal (JStr "https://example.com")];
           EvCall (WebOpen (JStr "https://example.com"));
           EvPrint [PLit "[JARVIS] Opened web app: "; PVal (JStr "https://example.com")]]).
Proof.
  rewrite (runner_known_command ["automation_runner.py"; "open_web_app"; "https://example.com"]
             quiet_host OpenWebApp ltac:(simpl; auto) eq_refl).
  reflexivity.
Defined.

(** [open_desktop_app] on a string never raises: its [try] covers the only
    call that can fail. *)
Lemma open_desktop_app_string_returns a h :
  exists b, fst (open_desktop_app (JStr a) h) = Ret b.
Proof.
  unfold open_desktop_app, bind, enter, print, py_str_lower, ret, try_except.
  rewrite launch_desktop_app_popen.
  destruct (raises h _); simpl; eauto.
Qed.

(** Consequently the two-argument [open_desktop_app] command always exits
    with status 0, whether or not the application could be launched. *)
Theorem runner_open_desktop_app_exit_zero argv h :
  3 <= length argv ->
  nth 1 argv "" = "open_desktop_app" ->
  fst (run_script (runner_main argv) h) = 0%Z.
Proof.
  intros Hlen Hct.
  rewrite (runner_known_command argv h OpenDesktopApp Hlen Hct); simpl.
  destruct (open_desktop_app_string_returns (nth 2 argv "") h) as [b Hb].
  destruct (open_desktop_app (JStr (nth 2 argv "")) h) as [o t]; simpl in Hb; subst.
  reflexivity.
Qed.

Lemma runner_open_desktop_app_exit_zero_witness :
  fst (run_script (runner_main ["automation_runner.py"; "open_desktop_app"; "calculator"])
         no_such_program_host) = 0%Z.
Proof.
  apply runner_open_desktop_app_exit_zero; [simpl; auto | reflexivity].
Defined.

(** The two-argument entry point with a command type that is none of the
    three prints the error naming it and exits with 1, running no
    operation and issuing no external call. *)
Theorem runner_unknown_command argv h :
  3 <= length argv ->
  (forall k, nth 1 argv "" <> action_name k) ->
  run_script (runner_main argv) h =
    (1%Z, [EvPrint [PLit "Error: Unknown command type '"; PLit (nth 1 argv ""); PLit "'"]]).
Proof.
  intros Hlen Hct.
  unfold run_script, runner_main.
  destruct (Nat.ltb_spec (length argv) 3) as [Hlt|_];
    [exfalso; apply (Nat.lt_irrefl 3); eapply Nat.le_lt_trans; eassumption|].
  pose proof (Hct SearchGoogle) as H1; pose proof (Hct OpenWebApp) as H2;
    pose proof (Hct OpenDesktopApp) as H3; simpl in H1, H2, H3.
  apply String.eqb_neq in H1, H2, H3.
  rewrite H1, H2, H3; reflexivity.
Qed.

Lemma runner_unknown_command_witness :
  fst (run_script (runner_main ["automation_runner.py"; "delete_everything"; "x"]) quiet_host)
  = 1%Z.
Proof.
  rewrite runner_unknown_command; [reflexivity | simpl; auto |].
  intros [] E; discriminate E.
Defined.

Lemma is_str_true v l : is_str v l = true -> v = JStr l.
Proof. destruct v; simpl; try discriminate; intros E; apply String.eqb_eq in E; subst; reflexivity. Qed.

Ltac pa_red := cbv [process_action try_except bind json_loads_m py_get ret print].

Ltac pa_dispatch fields k pf :=
  right; exists fields, k, pf; eexists; simpl;
  repeat split; try reflexivity; try congruence; assumption.

Ltac pa_rejected :=
  left; eexists; split; [reflexivity | split; reflexivity].

(** Every run of [process_action] either rejects its input, returning
    [False] with no executor operation and no external call, or reaches the
    dispatch of a recognized kind with a truthy required parameter. *)
Lemma process_action_cases json_loads s h :
  (exists t, process_action json_loads s h = (Ret false, t) /\
             enters t = [] /\ calls t = []) \/
  (exists fields k pf v,
     json_loads s = Some (JObj fields) /\
     dict_get fields "action" JNull = JStr (action_name k) /\
     dict_get fields "params" (JObj []) = JObj pf /\
     dict_get pf (required_key k) JNull = v /\
     truthy v = true).
Proof.
  pa_red; destruct (json_loads s) as [d|] eqn:Hs; [|pa_rejected].
  destruct d as [| | | | |fields]; try pa_rejected.
  remember (dict_get fields "action" JNull) as a eqn:Ha.
  remember (dict_get fields "params" (JObj [])) as p eqn:Hp.
  destruct (truthy a) eqn:Ta; [|pa_rejected].
  destruct (is_str a "search_google") eqn:E1;
    [ apply is_str_true in E1;
      destruct p as [| | | | |pf]; try pa_rejected;
      destruct (truthy (dict_get pf "query" JNull)) eqn:Tv; [|pa_rejected];
      pa_dispatch fields SearchGoogle pf |].
  destruct (is_str a "open_web_app") eqn:E2;
    [ apply is_str_true in E2;
      destruct p as [| | | | |pf]; try pa_rejected;
      destruct (truthy (dict_get pf "url" JNull)) eqn:Tv; [|pa_rejected];
      pa_dispatch fields OpenWebApp pf |].
  destruct (is_str a "open_desktop_app") eqn:E3; [|pa_rejected].
  apply is_str_true in E3.
  destruct p as [| | | | |pf]; try pa_rejected.
  destruct (truthy (dict_get pf "app_name" JNull)) eqn:Tv; [|pa_rejected].
  pa_dispatch fields OpenDesktopApp pf.
Qed.

(** [process_action] returns [True] only through an executor operation:
    then exactly one operation was entered, and it returned [True] with the
    same trace. *)
Theorem process_action_true_via_executor json_loads s h :
  fst (process_action json_loads s h) = Ret true ->
  exists k v, enters (snd (process_action json_loads s h)) = [(k, v)] /\
              executor k v h = process_action json_loads s h.
Proof.
  intros Htrue.
  destruct (process_action_cases json_loads s h)
    as [(t & E & _) | (fields & k & pf & v & Hs & Ha & Hp & Hv & Ht)].
  - rewrite E in Htrue; discriminate.
  - rewrite (process_action_dispatch json_loads s h fields k pf v Hs Ha Hp Hv Ht) in Htrue |- *.
    exists k, v.
    pose proof (executor_enters k v h) as He.
    destruct (executor k v h) as [[b|[[] msg|c]] t]; simpl in Htrue |- *;
      try discriminate; split; auto.
Qed.

Lemma process_action_true_via_executor_witness :
  exists k v,
    enters (snd (process_action
      (fun _ => Some (JObj [("action", JStr "open_web_app");
                            ("params", JObj [("url", JStr "https://example.com")])]))
      "w" quiet_host)) = [(k, v)].
Proof.
  destruct (process_action_true_via_executor
              (fun _ => Some (JObj [("action", JStr "open_web_app");
                                    ("params", JObj [("url", JStr "https://example.com")])]))
              "w" quiet_host eq_refl) as (k & v & He & _).
  exists k, v; exact He.
Defined.

(** [process_action] always returns a boolean. *)
Lemma process_action_total json_loads s h :
  exists b t, process_action json_loads s h = (Ret b, t).
Proof.
  destruct (process_action_cases json_loads s h)
    as [(t & E & _) | (fields & k & pf & v & Hs & Ha & Hp & Hv & Ht)]; [eauto|].
  rewrite (process_action_dispatch json_loads s h fields k pf v Hs Ha Hp Hv Ht).
  pose proof (executor_safe k v h) as Hsafe.
  destruct (executor k v h) as [[b|e] t]; [eauto|].
  destruct (Hsafe e t eq_refl) as (c & msg & -> & [-> | ->]); eauto.
Qed.

(** The single-argument [main] (as its body reads) exits with 0 exactly
    when [process_action] returns [True] and with 1 otherwise, adding
    nothing to what [process_action] printed and did. *)
Theorem processor_main_exit json_loads argv h :
  2 <= length argv ->
  exists b t, process_action json_loads (nth 1 argv "") h = (Ret b, t) /\
              run_script (main json_loads argv) h = (if b then 0%Z else 1%Z, t).
Proof.
  intros Hlen.
  destruct (process_action_total json_loads (nth 1 argv "") h) as (b & t & E).
  exists b, t; split; [exact E|].
  unfold run_script, main.
  destruct (Nat.ltb_spec (length argv) 2) as [Hlt|_];
    [exfalso; apply (Nat.lt_irrefl 2); eapply Nat.le_lt_trans; eassumption|].
  unfold bind at 1; rewrite E.
  destruct b; simpl; rewrite ?app_nil_r; reflexivity.
Qed.

Lemma processor_main_exit_witness :
  exists b t,
    process_action (fun _ => Some (JObj [("action", JStr "open_web_app");
                                         ("params", JObj [("url", JStr "https://example.com")])]))
      "w" quiet_host = (Ret b, t) /\
    run_script (main (fun _ => Some (JObj [("action", JStr "open_web_app");
                                           ("params", JObj [("url", JStr "https://example.com")])]))
                     ["action_processor.py"; "w"]) quiet_host = (if b then 0%Z else 1%Z, t).
Proof.
  exact (processor_main_exit
           (fun _ => Some (JObj [("action", JStr "open_web_app");
                                 ("params", JObj [("url", JStr "https://example.com")])]))
           ["action_processor.py"; "w"] quiet_host ltac:(simpl; auto)).
Defined.

(** A truthy [app_name] that is not a string ([5], [true], a list or an
    object) enters [open_desktop_app], whose [app_name.lower()] raises
    [AttributeError] outside its [try]; [process_action] turns it into
    [False].  No process is launched. *)
Theorem process_action_app_name_not_string json_loads s h fields pf v :
  json_loads s = Some (JObj fields) ->
  dict_get fields "action" JNull = JStr "open_desktop_app" ->
  dict_get fields "params" (JObj []) = JObj pf ->
  dict_get pf "app_name" JNull = v ->
  truthy v = true ->
  (forall x, v <> JStr x) ->
  process_action json_loads s h =
    (Ret false,
     [EvEnter OpenDesktopApp v;
      EvPrint [PLit "[JARVIS] Launching desktop app: "; PVal v];
      EvPrint [PLit "Error processing action: ";
               PLit ("'" ++ py_type_name v ++ "' object has no attribute 'lower'")%string]]).
Proof.
  intros Hs Ha Hp Hv Ht Hns.
  rewrite (process_action_dispatch json_loads s h fields OpenDesktopApp pf v Hs Ha Hp Hv Ht).
  simpl; unfold open_desktop_app, bind, enter, print, py_str_lower, raise.
  destruct v; try (exfalso; eapply Hns; reflexivity); reflexivity.
Qed.

Lemma process_action_app_name_not_string_witness :
  fst (process_action (fun _ => Some (JObj [("action", JStr "open_desktop_app");
                                            ("params", JObj [("app_name", JNum 5)])]))
         "n" quiet_host) = Ret false.
Proof.
  rewrite (process_action_app_name_not_string _ "n" quiet_host
             [("action", JStr "open_desktop_app"); ("params", JObj [("app_name", JNum 5)])]
             [("app_name", JNum 5)] (JNum 5) eq_refl eq_refl eq_refl eq_refl eq_refl
             ltac:(discriminate)).
  reflexivity.
Defined.

(** For a recognized kind whose [params] is present but not an object
    (e.g. [null] or a string), [params.get] raises [AttributeError], and
    [process_action] returns [False] with that message and no other
    effect. *)
Theorem process_action_params_not_object json_loads s h fields k p :
  json_loads s = Some (JObj fields) ->
  dict_get fields "action" JNull = JStr (action_name k) ->
  dict_get fields "params" (JObj []) = p ->
  (forall pf, p <> JObj pf) ->
  process_action json_loads s h =
    (Ret false, [EvPrint [PLit "Error processing action: ";
                          PLit ("'" ++ py_type_name p ++ "' object has no attribute 'get'")%string]]).
Proof.
  intros Hs Ha Hp Hno.
  unfold process_action, try_except, bind at 1, json_loads_m; rewrite Hs.
  unfold ret at 1, bind at 1, py_get at 1; rewrite Ha.
  unfold ret at 1, bind at 1, py_get at 1; rewrite Hp.
  unfold ret at 1.
  destruct k; simpl; unfold bind at 1;
    destruct p; try (exfalso; eapply Hno; reflexivity); reflexivity.
Qed.

Lemma process_action_params_not_object_witness :
  fst (process_action (fun _ => Some (JObj [("action", JStr "search_google"); ("params", JNull)]))
         "p" quiet_host) = Ret false.
Proof.
  rewrite (process_action_params_not_object _ "p" quiet_host
             [("action", JStr "search_google"); ("params", JNull)] SearchGoogle JNull
             eq_refl eq_refl eq_refl ltac:(discriminate)).
  reflexivity.
Defined.

(** [open_desktop_app] depends on the case of [app_name] only through the
    line it prints first: two names with the same lower-case form under
    the runtime's [str.lower] launch the same process and give the same
    result. *)
Theorem open_desktop_app_case_insensitive a b h :
  str_lower h a = str_lower h b ->
  calls (snd (open_desktop_app (JStr a) h)) = calls (snd (open_desktop_app (JStr b) h)) /\
  fst (open_desktop_app (JStr a) h) = fst (open_desktop_app (JStr b) h).
Proof.
  intros Hab.
  unfold open_desktop_app, bind, enter, print, py_str_lower, ret, try_except.
  rewrite !launch_desktop_app_popen, Hab.
  destruct (raises h _); split; reflexivity.
Qed.

Lemma open_desktop_app_case_insensitive_witness :
  calls (snd (open_desktop_app (JStr "Visual Studio CODE") quiet_host)) =
  calls (snd (open_desktop_app (JStr "visual studio code") quiet_host)).
Proof. apply open_desktop_app_case_insensitive; reflexivity. Defined.

(** [search_google] issues its calls in order and stops at the first one
    that raises: what it issued is a prefix of
    open-browser, sleep, type, press-enter, and every call before the last
    one issued returned.  In particular, when the browser cannot be opened
    nothing is typed and no key is pressed. *)
Theorem search_google_stops_at_failure q h :
  (exists n, calls (snd (search_google q h)) = firstn n (search_google_calls q)) /\
  (forall c, In c (removelast (calls (snd (search_google q h)))) -> raises h c = None) /\
  (raises h (WebOpen (JStr "https://www.google.com")) <> None ->
   calls (snd (search_google q h)) = [WebOpen (JStr "https://www.google.com")]).
Proof.
  unfold search_google, search_google_calls, bind, enter, print, syscall, ret; simpl.
  repeat match goal with
         | |- context [raises h ?c] => destruct (raises h c) eqn:?; simpl
         end;
    (split; [ first [ exists 1; reflexivity | exists 2; reflexivity
                    | exists 3; reflexivity | exists 4; reflexivity ] |]);
    (split;
      [ intros c Hin; simpl in Hin;
        repeat (destruct Hin as [<- | Hin]; [assumption |]); contradiction
      | intros Hne; first [ reflexivity | exfalso; apply Hne; reflexivity ] ]).
Qed.
